(** * tlslite.integration.httptlsconnection: TLS Lite + httplib

    A shallow embedding of [HTTPBaseTLSConnection] and [HTTPTLSConnection]
    (src/tlslite/integration/httptlsconnection.py) and the properties of their
    connection life cycle.

    Python objects live on a heap and are mutated in place, and every call
    into the socket layer or the TLS engine is an effect.  The embedding
    therefore threads a state through a small state-and-exception monad:
    a raised exception keeps the state reached so far, exactly as a Python
    exception leaves the mutations done before the [raise]. *)

From Stdlib Require Import ZArith Lia Ascii String.
From stdpp Require Import base option list gmap strings.

Set Default Proof Using "Type".

(** ** Exceptions and results *)

Inductive Exn : Type :=
| NotImplementedError
| AttributeError
| ConfigurationError
| InvalidURL
| SocketError (errno : Z)
| TLSError (code : Z).

Inductive Res (A : Type) : Type :=
| Return (a : A)
| Raise (e : Exn).
Arguments Return {A} a.
Arguments Raise {A} e.

Definition is_Return {A} (r : Res A) : bool :=
  match r with Return _ => true | Raise _ => false end.

(** ** The state-and-exception monad *)

Definition M (S A : Type) : Type := S → Res A * S.

#[export] Instance M_ret {S} : MRet (M S) := λ A a s, (Return a, s).

#[export] Instance M_bind {S} : MBind (M S) := λ A B f c s,
  match c s with
  | (Return a, s') => f a s'
  | (Raise e, s') => (Raise e, s')
  end.

Definition raise {S A} (e : Exn) : M S A := λ s, (Raise e, s).
Definition gets {S A} (f : S → A) : M S A := λ s, (Return (f s), s).
Definition modify {S} (f : S → S) : M S unit := λ s, (Return (), f s).

(** ** Sockets, sessions and the observable world *)

(** A raw stream socket as the adapter sees it: the timeout set on it, the
    peer it is connected to, and whether it has been closed. *)
Record RawSocket : Type := mkRawSocket {
  so_timeout : option Z;
  so_peer : option (string * Z);
  so_closed : bool
}.

Definition fresh_socket : RawSocket :=
  {| so_timeout := None; so_peer := None; so_closed := false |}.

Definition with_timeout (t : Z) (rs : RawSocket) : RawSocket :=
  {| so_timeout := Some t; so_peer := so_peer rs; so_closed := so_closed rs |}.

Definition with_peer (h : string) (p : Z) (rs : RawSocket) : RawSocket :=
  {| so_timeout := so_timeout rs; so_peer := Some (h, p); so_closed := so_closed rs |}.

Definition close_socket (rs : RawSocket) : RawSocket :=
  {| so_timeout := so_timeout rs; so_peer := so_peer rs; so_closed := true |}.

Definition live (rs : RawSocket) : bool :=
  bool_decide (is_Some (so_peer rs)) && negb (so_closed rs).

(** Modelled from the spec: [tlslite.tlsconnection.TLSConnection] is not part
    of the sources at hand.  The spec describes the secure session as an
    object that wraps exactly one raw socket; the object is identified by
    [tls_id] and holds a reference [tls_sock] to the socket it wraps. *)
Record TLSConnection : Type := mkTLSConnection {
  tls_id : nat;
  tls_sock : nat
}.

(** What the adapter does, in program order. *)
Inductive Event : Type :=
| EvSocket (k : nat)                       (* socket.socket(AF_INET, SOCK_STREAM) *)
| EvSetTimeout (k : nat) (t : Z)           (* sock.settimeout(t) *)
| EvConnect (k : nat) (h : string) (p : Z) (* sock.connect((h, p)) *)
| EvWrap (tls : TLSConnection)             (* TLSConnection(sock) *)
| EvSetSock (tls : TLSConnection)          (* self.sock = ... *)
| EvHandshake (tls : TLSConnection).       (* self._handshake(self.sock) *)

Record World : Type := mkWorld {
  next_id : nat;                   (* identity of the next allocated object *)
  sockets : gmap nat RawSocket;    (* the raw sockets, by identity *)
  log : list Event
}.

Definition empty_world : World :=
  {| next_id := 0; sockets := ∅; log := [] |}.

(** ** Credentials *)

(** Certificate chains, private keys and handshake settings are opaque
    values passed through unmodified; they are represented by handles. *)
Record ClientHelper : Type := mkClientHelper {
  username : option string;
  password : option string;
  certChain : option nat;
  privateKey : option nat;
  x509Fingerprint : option string;
  settings : option nat
}.

(** ** The platform *)

(** The parts of the run-time environment the program calls into:
    - [has_settimeout]: [hasattr(sock, 'settimeout')];
    - [py_int s]: the built-in [int(s)] on a string; [None] when it raises
      ValueError;
    - [tcp_connect h p k rs]: the outcome of [sock.connect((h, p))] on the
      socket [k] in state [rs]; [None] when the connection is established;
    - [negotiate c tls rs]: how the TLS negotiation with the peer ends for
      the session [tls] over its raw socket in state [rs], run with the
      credentials [c]; [None] when it succeeds. *)
Class Platform : Type := {
  has_settimeout : bool;
  py_int : string → option Z;
  tcp_connect : string → Z → nat → RawSocket → option Exn;
  negotiate : ClientHelper → TLSConnection → RawSocket → option Exn
}.

(** ** httplib.HTTPConnection *)

Record HTTPConnection : Type := mkHTTPConnection {
  host : string;
  port : Z;
  strict : option bool;
  sock : option TLSConnection
}.

(** The two call shapes of [httplib.HTTPConnection.__init__] the adapter
    uses: with and without the [strict] argument. *)
Inductive InitCall : Type :=
| Init2 (h : string) (p : option Z)
| Init3 (h : string) (p : option Z) (s : bool).

(** [s.rfind(c)] for a one-character [c]: the highest index at which [c]
    occurs in [s], or -1. *)
Fixpoint rfind (c : ascii) (s : string) : Z :=
  match s with
  | EmptyString => -1
  | String a s' =>
      let r := rfind c s' in
      if (0 <=? r)%Z then (r + 1)%Z
      else if Ascii.eqb a c then 0%Z else (-1)%Z
  end.

(** [s[n:]] and [s[:n]] for an index [n] within the string. *)
Definition slice_from (n : nat) (s : string) : string :=
  String.substring n (String.length s - n) s.

Definition slice_to (n : nat) (s : string) : string :=
  String.substring 0 n s.

(** [host[i+1:]] and [host[:i]] for [i = host.rfind(':')]. *)
Definition port_part (host : string) : string :=
  slice_from (Z.to_nat (rfind ":" host) + 1) host.

Definition host_part (host : string) : string :=
  slice_to (Z.to_nat (rfind ":" host)) host.

(** [host and host[0] == '[' and host[-1] == ']'] *)
Definition bracketed (host : string) : bool :=
  match String.get 0 host, String.get (String.length host - 1) host with
  | Some a, Some b => Ascii.eqb a "[" && Ascii.eqb b "]"
  | _, _ => false
  end.

(** [host[1:-1]] when the host is bracketed. *)
Definition unbracket (host : string) : string :=
  if bracketed host
  then String.substring 1 (String.length host - 2) host
  else host.

(** [HTTPConnection._get_hostport(host, port)] of Python 2.7's httplib, which
    the constructor calls: a port that is given is kept with the host as it
    is; otherwise a port written after the last ':' of the host string (when
    that ':' comes after the last ']') is read with [int], an empty one
    stands for the default port, any other text raises InvalidURL, and an
    IPv6 host loses its brackets. *)
Definition httplib_get_hostport `{Platform}
    (default_port : Z) (host : string) (port : option Z) : Res (string * Z) :=
  match port with
  | Some p => Return (host, p)
  | None =>
      let i := rfind ":" host in
      let j := rfind "]" host in          (* ipv6 addresses have [...] *)
      if (j <? i)%Z then
        match py_int (port_part host) with
        | Some n => Return (unbracket (host_part host), n)
        | None =>
            if String.eqb (port_part host) ""
            then Return (unbracket (host_part host), default_port)
            else Raise InvalidURL
        end
      else Return (unbracket host, default_port)
  end.

(** [httplib.HTTPConnection.__init__] belongs to the Python library: it
    resolves host and port with [_get_hostport], falling back on the class
    attribute [default_port], sets [strict] only when the argument is passed
    and starts with [sock = None]. *)
Definition httplib_HTTPConnection_init `{Platform} (default_port : Z) (c : InitCall)
  : Res HTTPConnection :=
  match c with
  | Init2 h p =>
      match httplib_get_hostport default_port h p with
      | Return (h', p') =>
          Return {| host := h'; port := p'; strict := None; sock := None |}
      | Raise e => Raise e
      end
  | Init3 h p s =>
      match httplib_get_hostport default_port h p with
      | Return (h', p') =>
          Return {| host := h'; port := p'; strict := Some s; sock := None |}
      | Raise e => Raise e
      end
  end.

(** ** Adapter objects *)

(** A handshake hook reads the adapter and acts on the session it is given. *)
Definition Hook : Type :=
  HTTPConnection → TLSConnection → gmap nat RawSocket → Res unit * gmap nat RawSocket.

(** The class of an adapter object decides which [_handshake] a call to
    [self._handshake] resolves to. *)
Inductive Kind : Type :=
| KBase                              (* HTTPBaseTLSConnection itself *)
| KHTTPTLS (helper : ClientHelper)   (* HTTPTLSConnection, with its ClientHelper part *)
| KSubclass (hook : Hook).           (* any other subclass overriding _handshake *)

Record Adapter : Type := mkAdapter {
  kind : Kind;
  http : HTTPConnection
}.

Record Machine : Type := mkMachine {
  self : Adapter;
  world : World
}.

Definition set_sock (tls : TLSConnection) (a : Adapter) : Adapter :=
  {| kind := kind a;
     http := {| host := host (http a); port := port (http a);
                strict := strict (http a); sock := Some tls |} |}.

Definition liftW {A} (c : M World A) : M Machine A := λ m,
  let '(r, w) := c (world m) in (r, {| self := self m; world := w |}).

Definition emit (e : Event) : M World unit :=
  modify (λ w, {| next_id := next_id w; sockets := sockets w; log := log w ++ [e] |}).

(** ** The socket layer *)

(** [socket.socket(socket.AF_INET, socket.SOCK_STREAM)]: a new socket object,
    distinct from every object allocated before. *)
Definition socket_socket : M World nat := λ w,
  let k := next_id w in
  (Return k,
   {| next_id := S k;
      sockets := <[k := fresh_socket]> (sockets w);
      log := log w ++ [EvSocket k] |}).

(** [sock.settimeout(t)] *)
Definition settimeout (k : nat) (t : Z) : M World unit := λ w,
  (Return (),
   {| next_id := next_id w;
      sockets := alter (with_timeout t) k (sockets w);
      log := log w ++ [EvSetTimeout k t] |}).

(** [sock.connect((h, p))]; a handle that names no socket is a bad
    descriptor (errno 9). *)
Definition sock_connect `{Platform} (k : nat) (h : string) (p : Z) : M World unit := λ w,
  let called := log w ++ [EvConnect k h p] in
  match sockets w !! k with
  | None =>
      (Raise (SocketError 9),
       {| next_id := next_id w; sockets := sockets w; log := called |})
  | Some rs =>
      match tcp_connect h p k rs with
      | Some e =>
          (Raise e, {| next_id := next_id w; sockets := sockets w; log := called |})
      | None =>
          (Return (),
           {| next_id := next_id w;
              sockets := <[k := with_peer h p rs]> (sockets w);
              log := called |})
      end
  end.

(** Modelled from the spec: the constructor [TLSConnection(sock)] of
    tlslite/tlsconnection.py is not part of the sources at hand.  Following
    the spec, it takes a raw socket and returns a new session object wrapping
    it, without touching the network. *)
Definition TLSConnection_new (k : nat) : M World TLSConnection := λ w,
  let tls := {| tls_id := next_id w; tls_sock := k |} in
  (Return tls,
   {| next_id := S (next_id w); sockets := sockets w; log := log w ++ [EvWrap tls] |}).

(** ** ClientHelper *)

(** The pairing invariant on credentials: a user name comes with a password
    and a certificate chain comes with a private key, or neither is given. *)
Definition pairing_ok (c : ClientHelper) : bool :=
  bool_decide (is_Some (username c) ↔ is_Some (password c))
  && bool_decide (is_Some (certChain c) ↔ is_Some (privateKey c)).

(** Modelled from the spec: [ClientHelper.__init__] of
    tlslite/integration/clienthelper.py is not part of the sources at hand.
    Following the spec, the constructor validates the pairing of the
    credentials and rejects a malformed pairing with a configuration error;
    otherwise it stores the credentials, the fingerprint and the settings
    unmodified. *)
Definition ClientHelper_init (c : ClientHelper) : Res ClientHelper :=
  if pairing_ok c then Return c else Raise ConfigurationError.

(** Modelled from the spec: the client handshake of [TLSConnection]
    (tlslite/tlsconnection.py) is not part of the sources at hand.  Following
    the spec, the session wraps exactly one raw socket and performs the
    handshake over it with the credentials it is given; a handshake that
    fails leaves no live raw socket behind: the session closes the socket it
    wraps before the failure is raised.  A session over a handle that names
    no socket fails on a bad descriptor (errno 9). *)
Definition TLSConnection_handshakeClient `{Platform}
    (c : ClientHelper) (tls : TLSConnection) (net : gmap nat RawSocket)
  : Res unit * gmap nat RawSocket :=
  match net !! tls_sock tls with
  | None => (Raise (SocketError 9), net)
  | Some rs =>
      match negotiate c tls rs with
      | None => (Return (), net)
      | Some e => (Raise e, <[tls_sock tls := close_socket rs]> net)
      end
  end.

(** Modelled from the spec: [ClientHelper._handshake] of
    tlslite/integration/clienthelper.py is not part of the sources at hand.
    Following the spec, it performs exactly one client handshake on the
    session, parameterised by the stored credentials, keeps no state of its
    own between invocations and lets a failure of that handshake through
    unchanged. *)
Definition ClientHelper_handshake `{Platform} (c : ClientHelper) : Hook :=
  λ _ tls net, TLSConnection_handshakeClient c tls net.

(** ** HTTPBaseTLSConnection *)

Definition default_port : Z := 443.

(** [HTTPBaseTLSConnection.__init__(self, host, port=None, strict=None)] *)
Definition HTTPBaseTLSConnection_init `{Platform}
    (host : string) (port : option Z) (strict : option bool) : M World HTTPConnection :=
  match strict with
  | None =>
      (* Python 2.2 doesn't support strict *)
      λ w, (httplib_HTTPConnection_init default_port (Init2 host port), w)
  | Some s =>
      λ w, (httplib_HTTPConnection_init default_port (Init3 host port s), w)
  end.

(** [HTTPBaseTLSConnection._handshake]: to be overridden in a subclass. *)
Definition HTTPBaseTLSConnection_handshake : Hook :=
  λ _ _ net, (Raise NotImplementedError, net).

(** ** HTTPTLSConnection *)

(** [HTTPTLSConnection.__init__(self, host, port=None, username=None,
    password=None, certChain=None, privateKey=None, x509Fingerprint=None,
    settings=None)] *)
Definition HTTPTLSConnection_init `{Platform}
    (host : string) (port : option Z) (creds : ClientHelper) : M World Adapter :=
  base ← HTTPBaseTLSConnection_init host port None;
  helper ← ((λ w, (ClientHelper_init creds, w)) : M World ClientHelper);
  mret {| kind := KHTTPTLS helper; http := base |}.

(** [HTTPTLSConnection._handshake] *)
Definition HTTPTLSConnection_handshake `{Platform} (helper : ClientHelper) : Hook :=
  ClientHelper_handshake helper.

(** Constructing the base class, or a subclass that only overrides the
    hook. *)
Definition HTTPBaseTLSConnection_new `{Platform}
    (host : string) (port : option Z) (strict : option bool) : M World Adapter :=
  base ← HTTPBaseTLSConnection_init host port strict;
  mret {| kind := KBase; http := base |}.

Definition Subclass_new `{Platform} (hook : Hook)
    (host : string) (port : option Z) (strict : option bool) : M World Adapter :=
  base ← HTTPBaseTLSConnection_init host port strict;
  mret {| kind := KSubclass hook; http := base |}.

(** ** Method resolution and [connect] *)

(** [self._handshake] resolves to the method of the object's class. *)
Definition resolve `{Platform} (a : Adapter) : Hook :=
  match kind a with
  | KBase => HTTPBaseTLSConnection_handshake
  | KHTTPTLS helper => HTTPTLSConnection_handshake helper
  | KSubclass hook => hook
  end.

Definition _handshake `{Platform} (a : Adapter) (tls : TLSConnection) : M Machine unit :=
  λ m,
    let w := world m in
    let '(r, net) := resolve a (http a) tls (sockets w) in
    (r, {| self := self m;
           world := {| next_id := next_id w; sockets := net; log := log w |} |}).

(** [HTTPBaseTLSConnection.connect(self)] *)
Definition connect `{Platform} : M Machine unit :=
  sk ← liftW socket_socket;
  _ ← (if has_settimeout then liftW (settimeout sk 10) else mret ());
  me ← gets self;
  _ ← liftW (sock_connect sk (host (http me)) (port (http me)));

  (* Use a TLSConnection to emulate a socket *)
  tls ← liftW (TLSConnection_new sk);
  _ ← modify (λ m, {| self := set_sock tls (self m); world := world m |});
  _ ← liftW (emit (EvSetSock tls));

  (* self._handshake(self.sock): the value read back from self.sock is the
     session just stored; calling into None would be an AttributeError *)
  me ← gets self;
  match sock (http me) with
  | None => raise AttributeError
  | Some s =>
      _ ← liftW (emit (EvHandshake s));
      _handshake me s
  end.

(** ** What one call to [connect] does *)

Section Connect.
Context `{Platform}.

(** The socket as [connect] prepares it before [sock.connect]. *)
Definition prepared : RawSocket :=
  if has_settimeout then with_timeout 10 fresh_socket else fresh_socket.

(** The session [connect] creates when started in [m]. *)
Definition new_tls (m : Machine) : TLSConnection :=
  {| tls_id := S (next_id (world m)); tls_sock := next_id (world m) |}.

(** The calls up to and including [sock.connect]. *)
Definition opening (m : Machine) : list Event :=
  let k := next_id (world m) in
  EvSocket k
  :: (if has_settimeout then [EvSetTimeout k 10] else [])
  ++ [EvConnect k (host (http (self m))) (port (http (self m)))].

(** The calls after a successful [sock.connect]. *)
Definition securing (m : Machine) : list Event :=
  let tls := new_tls m in [EvWrap tls; EvSetSock tls; EvHandshake tls].

(** The outcome of [sock.connect] in the call started in [m]. *)
Definition dial (m : Machine) : option Exn :=
  tcp_connect (host (http (self m))) (port (http (self m)))
              (next_id (world m)) prepared.

(** The raw sockets handed to the hook in the call started in [m]. *)
Definition connected_net (m : Machine) : gmap nat RawSocket :=
  <[next_id (world m) :=
      with_peer (host (http (self m))) (port (http (self m))) prepared]>
    (sockets (world m)).

(** The hook call of [connect] started in [m]. *)
Definition hook_call (m : Machine) : Res unit * gmap nat RawSocket :=
  let me := set_sock (new_tls m) (self m) in
  resolve me (http me) (new_tls m) (connected_net m).

End Connect.

(** ** Reading the log *)

(** The sessions the hook was invoked on, in order. *)
Fixpoint handshakes (l : list Event) : list TLSConnection :=
  match l with
  | [] => []
  | EvHandshake tls :: l' => tls :: handshakes l'
  | _ :: l' => handshakes l'
  end.

(** The sockets opened with [socket.socket], in order. *)
Fixpoint opened (l : list Event) : list nat :=
  match l with
  | [] => []
  | EvSocket k :: l' => k :: opened l'
  | _ :: l' => opened l'
  end.

(** The sessions created with [TLSConnection(sock)], in order. *)
Fixpoint wrapped (l : list Event) : list TLSConnection :=
  match l with
  | [] => []
  | EvWrap tls :: l' => tls :: wrapped l'
  | _ :: l' => wrapped l'
  end.

(** The timeouts set with [settimeout], in order. *)
Fixpoint timeouts (l : list Event) : list (nat * Z) :=
  match l with
  | [] => []
  | EvSetTimeout k t :: l' => (k, t) :: timeouts l'
  | _ :: l' => timeouts l'
  end.

(** The identities of the objects an event mentions. *)
Definition ev_ids (e : Event) : list nat :=
  match e with
  | EvSocket k | EvSetTimeout k _ | EvConnect k _ _ => [k]
  | EvWrap tls | EvSetSock tls | EvHandshake tls => [tls_id tls; tls_sock tls]
  end.

(** Every object the event mentions was allocated before [n]. *)
Definition older (n : nat) (e : Event) : Prop := Forall (λ i, i < n) (ev_ids e).

(** Every object the event mentions was allocated at [n] or later. *)
Definition newer (n : nat) (e : Event) : Prop := Forall (λ i, n ≤ i) (ev_ids e).

(** A machine as a run of the program can reach it: the objects in the log
    and the session the adapter holds were allocated in the past, and no
    socket has seen two handshakes. *)
Record consistent (m : Machine) : Prop := {
  log_older : Forall (older (next_id (world m))) (log (world m));
  sock_older : ∀ tls, sock (http (self m)) = Some tls →
                 tls_id tls < next_id (world m) ∧ tls_sock tls < next_id (world m);
  one_handshake : NoDup (tls_sock <$> handshakes (log (world m)))
}.

(** The adapter holds a session whose raw socket is connected and open. *)
Definition owns_live_socket (m : Machine) : bool :=
  match sock (http (self m)) with
  | None => false
  | Some tls =>
      match sockets (world m) !! tls_sock tls with
      | None => false
      | Some rs => live rs
      end
  end.

(** The credentials break the pairing invariant: one half of a pair is given
    without the other. *)
Definition half_given {A B} (x : option A) (y : option B) : Prop :=
  (is_Some x ∧ y = None) ∨ (x = None ∧ is_Some y).

Definition violates_pairing (c : ClientHelper) : Prop :=
  half_given (username c) (password c) ∨ half_given (certChain c) (privateKey c).

(** [n] calls to [connect] in a row, whatever each returns. *)
Fixpoint connects `{Platform} (n : nat) (m : Machine) : Machine :=
  match n with
  | 0 => m
  | S n' => connects n' (connect m).2
  end.

(** ** Sample platforms and adapters *)

(** A run time whose [int] reads plain decimal literals, the only port
    texts the sample runs use. *)
Fixpoint decimal_digits (acc : Z) (s : string) : option Z :=
  match s with
  | EmptyString => Some acc
  | String a s' =>
      let d := Ascii.nat_of_ascii a in
      if (48 <=? d) && (d <=? 57)
      then decimal_digits (acc * 10 + Z.of_nat (d - 48))%Z s'
      else None
  end.

Definition decimal (s : string) : option Z :=
  match s with
  | EmptyString => None
  | _ => decimal_digits 0 s
  end.

(** A host that accepts connections and a peer with which the handshake
    succeeds. *)
Definition friendly : Platform :=
  {| has_settimeout := true;
     py_int := decimal;
     tcp_connect := λ _ _ _ _, None;
     negotiate := λ _ _ _, None |}.

(** The same, on a Python whose sockets have no [settimeout]. *)
Definition legacy : Platform :=
  {| has_settimeout := false;
     py_int := decimal;
     tcp_connect := λ _ _ _ _, None;
     negotiate := λ _ _ _, None |}.

(** A host that refuses connections (errno 111). *)
Definition refusing : Platform :=
  {| has_settimeout := true;
     py_int := decimal;
     tcp_connect := λ _ _ _ _, Some (SocketError 111);
     negotiate := λ _ _ _, None |}.

(** A server that fails the handshake (alert 40). *)
Definition rejecting : Platform :=
  {| has_settimeout := true;
     py_int := decimal;
     tcp_connect := λ _ _ _ _, None;
     negotiate := λ _ _ _, Some (TLSError 40) |}.

Definition no_credentials : ClientHelper :=
  {| username := None; password := None; certChain := None; privateKey := None;
     x509Fingerprint := None; settings := None |}.

Definition alice : ClientHelper :=
  {| username := Some "alice"; password := Some "secret";
     certChain := None; privateKey := None;
     x509Fingerprint := None; settings := None |}.

Definition alice_no_password : ClientHelper :=
  {| username := Some "alice"; password := None;
     certChain := None; privateKey := None;
     x509Fingerprint := None; settings := None |}.

Definition example_http : HTTPConnection :=
  {| host := "example.test"; port := 443; strict := None; sock := None |}.

(** An [HTTPTLSConnection("example.test", 443, username="alice",
    password="secret")] before its first [connect]. *)
Definition alice_machine : Machine :=
  {| self := {| kind := KHTTPTLS alice; http := example_http |};
     world := empty_world |}.

(** An [HTTPBaseTLSConnection("example.test", 443)] before its first
    [connect]. *)
Definition base_machine : Machine :=
  {| self := {| kind := KBase; http := example_http |};
     world := empty_world |}.

(** The targets of the connection attempts, in order. *)
Fixpoint dialled (l : list Event) : list (string * Z) :=
  match l with
  | [] => []
  | EvConnect _ h p :: l' => (h, p) :: dialled l'
  | _ :: l' => dialled l'
  end.

(** The target an adapter stores. *)
Definition target (a : Adapter) : string * Z := (host (http a), port (http a)).

(** A hook whose outcome depends on the state of its session's own raw
    socket only, whatever else the socket store holds. *)
Definition local_hook (hk : Hook) : Prop :=
  ∀ c tls (net net' : gmap nat RawSocket),
    net !! tls_sock tls = net' !! tls_sock tls → (hk c tls net).1 = (hk c tls net').1.

(** * Properties *)


(** ** Construction *)

Lemma half_given_spec {A B} (x : option A) (y : option B) :
  half_given x y ↔ ¬ (is_Some x ↔ is_Some y).
Proof.
  unfold half_given. rewrite !is_Some_alt.
  destruct x, y; intuition (discriminate || auto).
Qed.

Lemma violates_pairing_spec (c : ClientHelper) :
  violates_pairing c ↔ pairing_ok c = false.
Proof.
  unfold violates_pairing, pairing_ok.
  rewrite andb_false_iff, !bool_decide_eq_false, !half_given_spec.
  done.
Qed.

Section Construction.
Context `{Platform}.

Lemma rfind_lower_bound (c : ascii) (s : string) : (-1 ≤ rfind c s)%Z.
Proof.
  induction s as [|a s IH]; cbn; [lia |].
  destruct (0 <=? rfind c s)%Z eqn:E; [apply Z.leb_le in E; lia |].
  destruct (Ascii.eqb a c); lia.
Qed.

(** A character that does not occur is not found. *)
Lemma rfind_absent (c : ascii) (s : string) :
  (∀ n, String.get n s ≠ Some c) → rfind c s = (-1)%Z.
Proof.
  induction s as [|a s IH]; intros Hno; [done |].
  cbn. rewrite IH; [| intros n; apply (Hno (S n))].
  cbn. destruct (Ascii.eqb_spec a c) as [->|]; [| done].
  by destruct (Hno 0).
Qed.

Lemma HTTPBaseTLSConnection_init_unfold
    (h : string) (p : option Z) (st : option bool) (w : World) :
  HTTPBaseTLSConnection_init h p st w =
    (match httplib_get_hostport default_port h p with
     | Return (h', p') =>
         Return {| host := h'; port := p'; strict := st; sock := None |}
     | Raise e => Raise e
     end, w).
Proof.
  unfold HTTPBaseTLSConnection_init, httplib_HTTPConnection_init.
  destruct st; by destruct (httplib_get_hostport default_port h p) as [[??]|].
Qed.

Lemma HTTPTLSConnection_init_unfold (h : string) (p : option Z) creds (w : World) :
  HTTPTLSConnection_init h p creds w =
    (match httplib_get_hostport default_port h p with
     | Return (h', p') =>
         if pairing_ok creds
         then Return {| kind := KHTTPTLS creds;
                        http := {| host := h'; port := p';
                                   strict := None; sock := None |} |}
         else Raise ConfigurationError
     | Raise e => Raise e
     end, w).
Proof.
  unfold HTTPTLSConnection_init, mbind, M_bind, mret, M_ret.
  rewrite HTTPBaseTLSConnection_init_unfold. unfold ClientHelper_init.
  destruct (httplib_get_hostport default_port h p) as [[??]|]; [| done].
  by destruct (pairing_ok creds).
Qed.

Lemma HTTPBaseTLSConnection_new_unfold
    (h : string) (p : option Z) (st : option bool) (w : World) :
  HTTPBaseTLSConnection_new h p st w =
    (match httplib_get_hostport default_port h p with
     | Return (h', p') =>
         Return {| kind := KBase;
                   http := {| host := h'; port := p'; strict := st; sock := None |} |}
     | Raise e => Raise e
     end, w).
Proof.
  unfold HTTPBaseTLSConnection_new, mbind, M_bind, mret, M_ret.
  rewrite HTTPBaseTLSConnection_init_unfold.
  by destruct (httplib_get_hostport default_port h p) as [[??]|].
Qed.

Lemma Subclass_new_unfold
    (hook : Hook) (h : string) (p : option Z) (st : option bool) (w : World) :
  Subclass_new hook h p st w =
    (match httplib_get_hostport default_port h p with
     | Return (h', p') =>
         Return {| kind := KSubclass hook;
                   http := {| host := h'; port := p'; strict := st; sock := None |} |}
     | Raise e => Raise e
     end, w).
Proof.
  unfold Subclass_new, mbind, M_bind, mret, M_ret.
  rewrite HTTPBaseTLSConnection_init_unfold.
  by destruct (httplib_get_hostport default_port h p) as [[??]|].
Qed.

(** A host string without a port part resolves to the default port. *)
Lemma get_hostport_no_port_part (d : Z) (h : string) :
  (rfind ":" h ≤ rfind "]" h)%Z →
  httplib_get_hostport d h None = Return (unbracket h, d).
Proof.
  intros Hle. unfold httplib_get_hostport.
  destruct (rfind "]" h <? rfind ":" h)%Z eqn:E; [| done].
  apply Z.ltb_lt in E. lia.
Qed.

(** C1: a credential set in which one half of a pair is given without the
    other (a user name without a password, a certificate chain without a
    private key, or the converse) makes the construction of the adapter
    fail, and the world is left as it was: no socket has been opened, and
    there is no adapter to call connect() on.  The failure is the
    configuration error, except that a host string the HTTP library itself
    rejects is reported first; with a port given, or a host string without a
    port part, it always is the configuration error. *)
Theorem unpaired_credentials_rejected
    (h : string) (p : option Z) (creds : ClientHelper) (w : World) :
  violates_pairing creds →
  is_Return (HTTPTLSConnection_init h p creds w).1 = false
  ∧ (HTTPTLSConnection_init h p creds w).2 = w
  ∧ opened (log (HTTPTLSConnection_init h p creds w).2) = opened (log w)
  ∧ (HTTPTLSConnection_init h p creds w).1 =
      match httplib_get_hostport default_port h p with
      | Return _ => Raise ConfigurationError
      | Raise e => Raise e
      end
  ∧ (is_Some p → HTTPTLSConnection_init h p creds w = (Raise ConfigurationError, w))
  ∧ ((rfind ":" h ≤ rfind "]" h)%Z →
     HTTPTLSConnection_init h p creds w = (Raise ConfigurationError, w)).
Proof.
  intros Hv%violates_pairing_spec.
  rewrite HTTPTLSConnection_init_unfold, Hv. split_and!.
  - by destruct (httplib_get_hostport default_port h p) as [[??]|].
  - done.
  - done.
  - by destruct (httplib_get_hostport default_port h p) as [[??]|].
  - by intros [q ->].
  - intros Hle. destruct p as [q|]; [done |].
    by rewrite (get_hostport_no_port_part _ _ Hle).
Qed.

(** C8, as the code has it: constructing an adapter leaves the world
    untouched and stores what the HTTP library resolves from the host and
    port arguments (and, for the concrete adapter, the credentials), with no
    transport yet.  A port that is given is stored with the host as they
    are.  A port that is omitted is 443 when the host string has no port part
    or an empty one; a number written after the last ':' of the host string
    is stored instead, and any other text there fails the construction with
    InvalidURL. *)
Theorem construction_stores_and_does_no_io
    (h : string) (p : option Z) (st : option bool)
    (creds : ClientHelper) (w : World) :
  (HTTPBaseTLSConnection_new h p st w).2 = w
  ∧ (HTTPTLSConnection_init h p creds w).2 = w
  ∧ (∀ h' p', httplib_get_hostport 443 h p = Return (h', p') →
       HTTPBaseTLSConnection_new h p st w =
         (Return {| kind := KBase;
                    http := {| host := h'; port := p';
                               strict := st; sock := None |} |}, w)
       ∧ HTTPTLSConnection_init h p creds w =
         (if pairing_ok creds
          then Return {| kind := KHTTPTLS creds;
                         http := {| host := h'; port := p';
                                    strict := None; sock := None |} |}
          else Raise ConfigurationError, w))
  ∧ (∀ e, httplib_get_hostport 443 h p = Raise e →
       HTTPBaseTLSConnection_new h p st w = (Raise e, w)
       ∧ HTTPTLSConnection_init h p creds w = (Raise e, w))
  ∧ (∀ q, httplib_get_hostport 443 h (Some q) = Return (h, q))
  ∧ ((rfind ":" h ≤ rfind "]" h)%Z →
       httplib_get_hostport 443 h None = Return (unbracket h, 443%Z))
  ∧ ((rfind "]" h < rfind ":" h)%Z →
       httplib_get_hostport 443 h None =
         match py_int (port_part h) with
         | Some n => Return (unbracket (host_part h), n)
         | None =>
             if String.eqb (port_part h) ""
             then Return (unbracket (host_part h), 443%Z)
             else Raise InvalidURL
         end).
Proof.
  rewrite HTTPBaseTLSConnection_new_unfold, HTTPTLSConnection_init_unfold.
  unfold default_port. split_and!.
  - done.
  - done.
  - by intros h' p' ->.
  - by intros e ->.
  - done.
  - apply get_hostport_no_port_part.
  - intros Hlt. unfold httplib_get_hostport.
    by apply Z.ltb_lt in Hlt as ->.
Qed.

Lemma httplib_init2_strict (d : Z) (h : string) (p : option Z) (c : HTTPConnection) :
  httplib_HTTPConnection_init d (Init2 h p) = Return c → strict c = None.
Proof.
  unfold httplib_HTTPConnection_init.
  destruct (httplib_get_hostport d h p) as [[??]|]; [| done].
  by intros [= <-].
Qed.

(** C10: the concrete constructor has no strict parameter and calls the base
    constructor with strict omitted, which in turn makes the two-argument
    call of the HTTP connection's constructor: whatever the arguments, an
    object it returns has no strict flag set. *)
Theorem HTTPTLSConnection_never_forwards_strict
    (h : string) (p : option Z) (creds : ClientHelper) (w : World) :
  HTTPBaseTLSConnection_init h p None w =
    (httplib_HTTPConnection_init default_port (Init2 h p), w)
  ∧ (HTTPTLSConnection_init h p creds w).1 =
    match httplib_HTTPConnection_init default_port (Init2 h p) with
    | Return c =>
        if pairing_ok creds
        then Return {| kind := KHTTPTLS creds; http := c |}
        else Raise ConfigurationError
    | Raise e => Raise e
    end
  ∧ (∀ a w', HTTPTLSConnection_init h p creds w = (Return a, w') →
             strict (http a) = None).
Proof.
  split_and!.
  - reflexivity.
  - rewrite HTTPTLSConnection_init_unfold. unfold httplib_HTTPConnection_init.
    by destruct (httplib_get_hostport default_port h p) as [[??]|].
  - intros a w'. rewrite HTTPTLSConnection_init_unfold.
    destruct (httplib_get_hostport default_port h p) as [[??]|]; [| done].
    destruct (pairing_ok creds); intros [= <- <-]; done.
Qed.

End Construction.

Lemma unpaired_credentials_rejected_witness :
  violates_pairing alice_no_password
  ∧ HTTPTLSConnection_init (H:=friendly)
      "example.test" (Some 443%Z) alice_no_password empty_world
    = (Raise ConfigurationError, empty_world).
Proof.
  assert (Hv : violates_pairing alice_no_password).
  { left. left. split; [by eexists | reflexivity]. }
  split; [exact Hv |].
  destruct (@unpaired_credentials_rejected friendly
              "example.test" (Some 443%Z) alice_no_password empty_world Hv)
    as (_ & _ & _ & _ & Hp & _).
  apply Hp. by eexists.
Defined.

(** C8, as stated, fails: with the port omitted and the host string
    'example.test:8443', the adapter stores host 'example.test' and port
    8443, not 443. *)
Lemma omitted_port_read_from_host_string :
  HTTPBaseTLSConnection_new (H:=friendly) "example.test:8443" None None empty_world
  = (Return {| kind := KBase;
               http := {| host := "example.test"; port := 8443;
                          strict := None; sock := None |} |},
     empty_world)
  ∧ HTTPTLSConnection_init (H:=friendly) "example.test:8443" None alice empty_world
    = (Return {| kind := KHTTPTLS alice;
                 http := {| host := "example.test"; port := 8443;
                            strict := None; sock := None |} |},
       empty_world)
  ∧ (8443 ≠ 443)%Z.
Proof. split_and!; [reflexivity | reflexivity | done]. Qed.

(** How the HTTP library resolves some host strings when the port is
    omitted. *)
Example get_hostport_samples :
  httplib_get_hostport (H:=friendly) 443 "example.test" None
    = Return ("example.test", 443%Z)
  ∧ httplib_get_hostport (H:=friendly) 443 "example.test:" None
    = Return ("example.test", 443%Z)
  ∧ httplib_get_hostport (H:=friendly) 443 "example.test:8443" None
    = Return ("example.test", 8443%Z)
  ∧ httplib_get_hostport (H:=friendly) 443 "[::1]" None
    = Return ("::1", 443%Z)
  ∧ httplib_get_hostport (H:=friendly) 443 "[::1]:8443" None
    = Return ("::1", 8443%Z)
  ∧ httplib_get_hostport (H:=friendly) 443 "example.test:https" None
    = Raise InvalidURL
  ∧ httplib_get_hostport (H:=friendly) 443 "example.test:8443" (Some 80%Z)
    = Return ("example.test:8443", 80%Z).
Proof. vm_compute. done. Qed.

(** The base constructor does forward a strict flag it is given. *)
Example HTTPBaseTLSConnection_forwards_strict :
  (HTTPBaseTLSConnection_init (H:=friendly) "example.test" None (Some true) empty_world).1 =
    Return {| host := "example.test"; port := 443; strict := Some true; sock := None |}.
Proof. reflexivity. Qed.

(** ** One call to [connect] *)

Section ConnectFacts.
Context `{Platform}.

Local Ltac connect_step :=
  cbn [self world next_id sockets log http host port sock kind strict fst snd].

Lemma connect_unfold (m : Machine) :
  connect m =
    match dial m with
    | Some e =>
        (Raise e,
         {| self := self m;
            world := {| next_id := S (next_id (world m));
                        sockets := <[next_id (world m) := prepared]> (sockets (world m));
                        log := log (world m) ++ opening m |} |})
    | None =>
        ((hook_call m).1,
         {| self := set_sock (new_tls m) (self m);
            world := {| next_id := S (S (next_id (world m)));
                        sockets := (hook_call m).2;
                        log := log (world m) ++ opening m ++ securing m |} |})
    end.
Proof.
  destruct m as [[kd [h p st sk]] [n net lg]].
  unfold connect, hook_call, dial, connected_net, opening, securing, new_tls, prepared.
  unfold mbind, M_bind, mret, M_ret, liftW, emit, gets, modify, raise, _handshake,
    socket_socket, settimeout, sock_connect, TLSConnection_new, set_sock.
  destruct has_settimeout; connect_step.
  - rewrite alter_insert_eq, lookup_insert_eq.
    destruct (tcp_connect h p n (with_timeout 10 fresh_socket)) as [e|]; connect_step.
    + rewrite <- !app_assoc. reflexivity.
    + rewrite insert_insert_eq.
      destruct (resolve _ _ _ _) as [r net']. connect_step.
      rewrite <- !app_assoc. reflexivity.
  - rewrite lookup_insert_eq.
    destruct (tcp_connect h p n fresh_socket) as [e|]; connect_step.
    + rewrite <- !app_assoc. reflexivity.
    + rewrite insert_insert_eq.
      destruct (resolve _ _ _ _) as [r net']. connect_step.
      rewrite <- !app_assoc. reflexivity.
Qed.

Lemma connect_refused (m : Machine) (e : Exn) :
  dial m = Some e →
  connect m =
    (Raise e,
     {| self := self m;
        world := {| next_id := S (next_id (world m));
                    sockets := <[next_id (world m) := prepared]> (sockets (world m));
                    log := log (world m) ++ opening m |} |}).
Proof. intros Hd. by rewrite connect_unfold, Hd. Qed.

Lemma connect_dialled (m : Machine) :
  dial m = None →
  connect m =
    ((hook_call m).1,
     {| self := set_sock (new_tls m) (self m);
        world := {| next_id := S (S (next_id (world m)));
                    sockets := (hook_call m).2;
                    log := log (world m) ++ opening m ++ securing m |} |}).
Proof. intros Hd. by rewrite connect_unfold, Hd. Qed.

(** The events one call adds to the log. *)
Lemma connect_log (m : Machine) :
  log (world (connect m).2) =
    log (world m) ++ opening m
    ++ match dial m with None => securing m | Some _ => [] end.
Proof.
  destruct (dial m) as [e|] eqn:Hd.
  - rewrite (connect_refused m e Hd). cbn. by rewrite app_nil_r.
  - by rewrite (connect_dialled m Hd).
Qed.

Lemma connect_result (m : Machine) :
  (connect m).1 =
    match dial m with Some e => Raise e | None => (hook_call m).1 end.
Proof.
  destruct (dial m) as [e|] eqn:Hd.
  - by rewrite (connect_refused m e Hd).
  - by rewrite (connect_dialled m Hd).
Qed.

Lemma connect_next_id (m : Machine) :
  next_id (world (connect m).2) =
    match dial m with
    | Some _ => S (next_id (world m))
    | None => S (S (next_id (world m)))
    end.
Proof.
  destruct (dial m) as [e|] eqn:Hd.
  - by rewrite (connect_refused m e Hd).
  - by rewrite (connect_dialled m Hd).
Qed.

Lemma connect_self (m : Machine) :
  self (connect m).2 =
    match dial m with
    | Some _ => self m
    | None => set_sock (new_tls m) (self m)
    end.
Proof.
  destruct (dial m) as [e|] eqn:Hd.
  - by rewrite (connect_refused m e Hd).
  - by rewrite (connect_dialled m Hd).
Qed.

Lemma opening_spelled (m : Machine) :
  opening m =
    [EvSocket (next_id (world m))]
    ++ (if has_settimeout then [EvSetTimeout (next_id (world m)) 10] else [])
    ++ [EvConnect (next_id (world m)) (host (http (self m))) (port (http (self m)))].
Proof. reflexivity. Qed.

Lemma handshakes_app (l1 l2 : list Event) :
  handshakes (l1 ++ l2) = handshakes l1 ++ handshakes l2.
Proof.
  induction l1 as [|e l1 IH]; [done |].
  destruct e; cbn; by rewrite ?IH.
Qed.

Lemma opened_app (l1 l2 : list Event) :
  opened (l1 ++ l2) = opened l1 ++ opened l2.
Proof.
  induction l1 as [|e l1 IH]; [done |].
  destruct e; cbn; by rewrite ?IH.
Qed.

Lemma wrapped_app (l1 l2 : list Event) :
  wrapped (l1 ++ l2) = wrapped l1 ++ wrapped l2.
Proof.
  induction l1 as [|e l1 IH]; [done |].
  destruct e; cbn; by rewrite ?IH.
Qed.

Lemma handshakes_opening (m : Machine) : handshakes (opening m) = [].
Proof. unfold opening. by destruct has_settimeout. Qed.

Lemma wrapped_opening (m : Machine) : wrapped (opening m) = [].
Proof. unfold opening. by destruct has_settimeout. Qed.

Lemma opened_opening (m : Machine) : opened (opening m) = [next_id (world m)].
Proof. unfold opening. by destruct has_settimeout. Qed.

Lemma older_mono (n n' : nat) (e : Event) : n ≤ n' → older n e → older n' e.
Proof.
  unfold older. intros Hle Ho. eapply Forall_impl; [exact Ho |].
  intros i Hi. cbn in Hi. lia.
Qed.

Lemma opening_ids (m : Machine) :
  Forall (λ e, ev_ids e = [next_id (world m)]) (opening m).
Proof.
  unfold opening. destruct has_settimeout; repeat constructor.
Qed.

Lemma older_handshakes (n : nat) (l : list Event) (tls : TLSConnection) :
  Forall (older n) l → tls ∈ handshakes l → tls_id tls < n ∧ tls_sock tls < n.
Proof.
  induction 1 as [|e l He Hl IH]; cbn; [by intros ?%elem_of_nil |].
  destruct e; try exact IH.
  intros [->|Hin]%elem_of_cons; [| by apply IH].
  unfold older in He. cbn in He.
  by apply Forall_cons in He as [? [? _]%Forall_cons].
Qed.

Lemma older_wrapped (n : nat) (l : list Event) (tls : TLSConnection) :
  Forall (older n) l → tls ∈ wrapped l → tls_id tls < n ∧ tls_sock tls < n.
Proof.
  induction 1 as [|e l He Hl IH]; cbn; [by intros ?%elem_of_nil |].
  destruct e; try exact IH.
  intros [->|Hin]%elem_of_cons; [| by apply IH].
  unfold older in He. cbn in He.
  by apply Forall_cons in He as [? [? _]%Forall_cons].
Qed.

Lemma older_opened (n : nat) (l : list Event) (k : nat) :
  Forall (older n) l → k ∈ opened l → k < n.
Proof.
  induction 1 as [|e l He Hl IH]; cbn; [by intros ?%elem_of_nil |].
  destruct e; try exact IH.
  intros [->|Hin]%elem_of_cons; [| by apply IH].
  unfold older in He. cbn in He.
  by apply Forall_cons in He as [? _].
Qed.

Lemma opening_older (m : Machine) (n : nat) :
  next_id (world m) < n → Forall (older n) (opening m).
Proof.
  intros Hn. eapply Forall_impl; [apply opening_ids |].
  intros e He. unfold older. cbn in He. rewrite He. by repeat constructor.
Qed.

Lemma securing_older (m : Machine) (n : nat) :
  S (next_id (world m)) < n → Forall (older n) (securing m).
Proof.
  intros Hn. unfold securing, older. repeat constructor; cbn; lia.
Qed.

Lemma opening_newer (m : Machine) : Forall (newer (next_id (world m))) (opening m).
Proof.
  eapply Forall_impl; [apply opening_ids |].
  intros e He. unfold newer. cbn in He. rewrite He. by repeat constructor.
Qed.

Lemma securing_newer (m : Machine) : Forall (newer (next_id (world m))) (securing m).
Proof. unfold securing, newer. repeat constructor; cbn; lia. Qed.

(** [connect] keeps a machine consistent, whatever it returns. *)
Lemma connect_consistent (m : Machine) : consistent m → consistent (connect m).2.
Proof.
  intros [Hlog Hsock Hnd]. split.
  - rewrite connect_log, connect_next_id.
    destruct (dial m); rewrite !Forall_app; split_and!;
      try (by apply opening_older; lia);
      try (by apply securing_older; lia);
      try done;
      (eapply Forall_impl; [exact Hlog |]; intros e0; apply older_mono; lia).
  - intros tls. rewrite connect_self, connect_next_id. destruct (dial m).
    + intros Hs. destruct (Hsock tls Hs). lia.
    + cbn. intros [= <-]. cbn. lia.
  - rewrite connect_log, !handshakes_app, handshakes_opening.
    destruct (dial m); cbn; [by rewrite app_nil_r |].
    rewrite fmap_app. cbn. apply NoDup_app. split_and!; [done | | apply NoDup_singleton].
    intros x Hx [->|[]%elem_of_nil]%elem_of_cons.
    apply list_elem_of_fmap in Hx as [tls [Hk Htls]].
    destruct (older_handshakes _ _ _ Hlog Htls). lia.
Qed.

Lemma connects_consistent (n : nat) (m : Machine) :
  consistent m → consistent (connects n m).
Proof.
  revert m. induction n as [|n IH]; intros m Hm; [done |].
  cbn. by apply IH, connect_consistent.
Qed.

Lemma timeouts_app (l1 l2 : list Event) :
  timeouts (l1 ++ l2) = timeouts l1 ++ timeouts l2.
Proof.
  induction l1 as [|e l1 IH]; [done |].
  destruct e; cbn; by rewrite ?IH.
Qed.

Lemma connect_opened (m : Machine) :
  opened (log (world (connect m).2)) = opened (log (world m)) ++ [next_id (world m)].
Proof.
  rewrite connect_log, !opened_app, opened_opening.
  destruct (dial m); cbn; by rewrite ?app_nil_r.
Qed.

Lemma connect_wrapped (m : Machine) :
  wrapped (log (world (connect m).2)) =
    wrapped (log (world m)) ++ match dial m with None => [new_tls m] | Some _ => [] end.
Proof.
  rewrite connect_log, !wrapped_app, wrapped_opening.
  destruct (dial m); cbn; by rewrite ?app_nil_r.
Qed.

Lemma connect_handshakes (m : Machine) :
  handshakes (log (world (connect m).2)) =
    handshakes (log (world m)) ++ match dial m with None => [new_tls m] | Some _ => [] end.
Proof.
  rewrite connect_log, !handshakes_app, handshakes_opening.
  destruct (dial m); cbn; by rewrite ?app_nil_r.
Qed.

Lemma connect_timeouts (m : Machine) :
  timeouts (log (world (connect m).2)) =
    timeouts (log (world m))
    ++ (if has_settimeout then [(next_id (world m), 10%Z)] else []).
Proof.
  rewrite connect_log, !timeouts_app. unfold opening.
  destruct has_settimeout, (dial m); cbn; by rewrite ?app_nil_r.
Qed.

(** One call mentions only objects it allocates itself. *)
Lemma connect_delta_newer (m : Machine) :
  ∃ evs, log (world (connect m).2) = log (world m) ++ evs
         ∧ Forall (newer (next_id (world m))) evs.
Proof.
  eexists. split; [apply connect_log |].
  apply Forall_app. split; [apply opening_newer |].
  destruct (dial m); [constructor | apply securing_newer].
Qed.

Lemma connect_next_id_lt (m : Machine) :
  next_id (world m) < next_id (world (connect m).2).
Proof. rewrite connect_next_id. destruct (dial m); lia. Qed.

Lemma connect_keeps_fields (m : Machine) :
  kind (self (connect m).2) = kind (self m)
  ∧ host (http (self (connect m).2)) = host (http (self m))
  ∧ port (http (self (connect m).2)) = port (http (self m))
  ∧ strict (http (self (connect m).2)) = strict (http (self m)).
Proof. rewrite connect_self. by destruct (dial m). Qed.

Lemma resolve_kind (a b : Adapter) : kind a = kind b → resolve a = resolve b.
Proof. unfold resolve. by intros ->. Qed.

(** The hooks of the two classes of the module are local. *)
Lemma builtin_hooks_local (a : Adapter) :
  (∀ hook, kind a ≠ KSubclass hook) → local_hook (resolve a).
Proof.
  intros Hk c tls net net' Hnet. unfold resolve.
  destruct (kind a) as [|helper|hook]; [done | | by destruct (Hk hook)].
  unfold HTTPTLSConnection_handshake, ClientHelper_handshake,
    TLSConnection_handshakeClient.
  rewrite Hnet. destruct (net' !! tls_sock tls) as [rs|]; [| done].
  by destruct (negotiate helper tls rs).
Qed.

(** What the hook of the concrete adapter does in a call whose connection
    stands. *)
Lemma hook_call_HTTPTLS (m : Machine) (helper : ClientHelper) :
  kind (self m) = KHTTPTLS helper →
  let rs := with_peer (host (http (self m))) (port (http (self m))) prepared in
  hook_call m =
    match negotiate helper (new_tls m) rs with
    | None => (Return (), connected_net m)
    | Some e => (Raise e, <[next_id (world m) := close_socket rs]> (connected_net m))
    end.
Proof.
  intros Hk rs. unfold hook_call, resolve, set_sock. cbn. rewrite Hk.
  unfold HTTPTLSConnection_handshake, ClientHelper_handshake,
    TLSConnection_handshakeClient. cbn.
  unfold connected_net at 1. rewrite lookup_insert_eq. fold rs.
  by destruct (negotiate helper (new_tls m) rs).
Qed.

(** The outcome of a call depends on the adapter's class, credentials and
    target and on the identity of the objects it allocates; with a local
    hook it depends on nothing else: not on the handle held, not on the
    other sockets, not on the log. *)
Lemma connect_result_clean_slate (m m' : Machine) :
  local_hook (resolve (self m)) →
  kind (self m') = kind (self m) →
  host (http (self m')) = host (http (self m)) →
  port (http (self m')) = port (http (self m)) →
  strict (http (self m')) = strict (http (self m)) →
  next_id (world m') = next_id (world m) →
  (connect m').1 = (connect m).1.
Proof.
  intros Hloc Hk Hh Hp Hs Hn.
  rewrite !connect_result.
  assert (Hd : dial m' = dial m) by (unfold dial; by rewrite Hh, Hp, Hn).
  rewrite Hd. destruct (dial m); [done |].
  unfold hook_call, new_tls, set_sock. cbn.
  rewrite Hk, Hh, Hp, Hs, Hn.
  erewrite (resolve_kind _ (self m)) by done.
  apply Hloc. cbn. unfold connected_net.
  by rewrite Hh, Hp, Hn, !lookup_insert_eq.
Qed.

End ConnectFacts.

Lemma fresh_machine_consistent (a : Adapter) :
  sock (http a) = None → consistent {| self := a; world := empty_world |}.
Proof.
  intros Hs. split; cbn.
  - constructor.
  - intros tls. by rewrite Hs.
  - constructor.
Qed.

(** ** The order of the steps and the freshness of what they create *)

Section ConnectOrder.
Context `{Platform}.

(** C3: a call to connect() opens a new raw socket (setting the timeout
    where the platform can), connects it to (host, port) and, once the
    connection stands, wraps the socket in a new session, stores the session
    as the transport handle and then invokes the hook once, on that session
    and with the handle already in place; over any number of calls no raw
    socket sees the hook twice. *)
Theorem connect_steps_in_order (m : Machine) (n : nat) :
  consistent m →
  let k := next_id (world m) in
  let tls := {| tls_id := S k; tls_sock := k |} in
  let me := set_sock tls (self m) in
  log (world (connect m).2) =
    log (world m)
    ++ [EvSocket k]
    ++ (if has_settimeout then [EvSetTimeout k 10] else [])
    ++ [EvConnect k (host (http (self m))) (port (http (self m)))]
    ++ match dial m with
       | None => [EvWrap tls; EvSetSock tls; EvHandshake tls]
       | Some _ => []
       end
  ∧ (k ∉ opened (log (world m)))
  ∧ (dial m = None →
       sock (http me) = Some tls
       ∧ self (connect m).2 = me
       ∧ (connect m).1 = (resolve me (http me) tls (connected_net m)).1
       ∧ sockets (world (connect m).2) = (resolve me (http me) tls (connected_net m)).2)
  ∧ NoDup (tls_sock <$> handshakes (log (world (connects n m)))).
Proof.
  intros Hm k tls me. split_and!.
  - rewrite connect_log, opening_spelled. by rewrite <- !app_assoc.
  - intros Hk%(older_opened _ _ _ (log_older m Hm)). unfold k in Hk. lia.
  - intros Hd. rewrite (connect_dialled m Hd). done.
  - apply one_handshake, connects_consistent, Hm.
Qed.

(** C4: two calls to connect() in a row each open a socket that did not
    exist before the call; the second call mentions no object of the first,
    and when its connection stands, the session it creates, hands to the
    hook and stores is a new one wrapping the new socket.  The second
    handshake is independent of the first: the concrete adapter runs it with
    the stored credentials on the new session over the newly connected
    socket, and the outcome of the second call is that of a call by the same
    adapter on a clean slate (any handle, any other sockets, any log) that
    allocates the same objects.  This holds of the hooks of both classes of
    the module, and of any hook that acts on its own session only. *)
Theorem successive_connects_are_independent (m : Machine) :
  consistent m →
  let m1 := (connect m).2 in
  let m2 := (connect m1).2 in
  let k1 := next_id (world m) in
  let k2 := next_id (world m1) in
  let tls1 := {| tls_id := S k1; tls_sock := k1 |} in
  let tls2 := {| tls_id := S k2; tls_sock := k2 |} in
  opened (log (world m2)) = opened (log (world m)) ++ [k1; k2]
  ∧ (k1 ∉ opened (log (world m)))
  ∧ (k2 ∉ opened (log (world m1)))
  ∧ k1 < k2
  ∧ Forall (older k2) (log (world m1))
  ∧ (∃ evs, log (world m2) = log (world m1) ++ evs ∧ Forall (newer k2) evs)
  ∧ (dial m = None →
       wrapped (log (world m1)) = wrapped (log (world m)) ++ [tls1]
       ∧ handshakes (log (world m1)) = handshakes (log (world m)) ++ [tls1]
       ∧ sock (http (self m1)) = Some tls1)
  ∧ (dial m1 = None →
       wrapped (log (world m2)) = wrapped (log (world m1)) ++ [tls2]
       ∧ handshakes (log (world m2)) = handshakes (log (world m1)) ++ [tls2]
       ∧ (tls2 ∉ wrapped (log (world m1)))
       ∧ (k2 ∉ (tls_sock <$> wrapped (log (world m1))))
       ∧ tls1 ≠ tls2
       ∧ sock (http (self m1)) ≠ Some tls2
       ∧ sock (http (self m2)) = Some tls2
       ∧ (connect m1).1 =
           (resolve (set_sock tls2 (self m1)) (http (set_sock tls2 (self m1)))
                    tls2 (connected_net m1)).1)
  ∧ (∀ helper, kind (self m) = KHTTPTLS helper → dial m1 = None →
       (connect m1).1 =
         match negotiate helper tls2
                 (with_peer (host (http (self m))) (port (http (self m))) prepared) with
         | None => Return ()
         | Some e => Raise e
         end)
  ∧ ((∀ hook, kind (self m) ≠ KSubclass hook) → local_hook (resolve (self m)))
  ∧ (local_hook (resolve (self m)) →
     ∀ m' : Machine,
       kind (self m') = kind (self m) →
       host (http (self m')) = host (http (self m)) →
       port (http (self m')) = port (http (self m)) →
       strict (http (self m')) = strict (http (self m)) →
       next_id (world m') = k2 →
       (connect m').1 = (connect m1).1).
Proof.
  intros Hm m1 m2 k1 k2 tls1 tls2.
  destruct (connect_keeps_fields m) as (Hk1 & Hh1 & Hp1 & Hs1).
  assert (Hm1 : consistent m1) by by apply connect_consistent.
  assert (Hlt : k1 < k2) by apply connect_next_id_lt.
  split_and!.
  - unfold m2, m1. rewrite !connect_opened, <- app_assoc. done.
  - intros Hk%(older_opened _ _ _ (log_older m Hm)). unfold k1 in Hk. lia.
  - intros Hk%(older_opened _ _ _ (log_older m1 Hm1)). unfold k2 in Hk. lia.
  - exact Hlt.
  - apply (log_older m1 Hm1).
  - apply connect_delta_newer.
  - intros Hd. unfold m1.
    rewrite connect_wrapped, connect_handshakes, connect_self, Hd. done.
  - intros Hd. unfold m2.
    rewrite connect_wrapped, connect_handshakes, connect_self, connect_result, Hd.
    split_and!; try done.
    + intros [Hi _]%(older_wrapped _ _ _ (log_older m1 Hm1)). cbn in Hi. unfold k2 in Hi. lia.
    + intros [tls [Hk Htls]]%list_elem_of_fmap.
      destruct (older_wrapped _ _ _ (log_older m1 Hm1) Htls) as [_ Hs].
      unfold k2 in Hk. lia.
    + intros [= _ Hk]. lia.
    + intros [_ Hs]%(sock_older m1 Hm1). cbn in Hs. unfold k2 in Hs. lia.
  - intros helper Hk Hd.
    assert (Hkm1 : kind (self m1) = KHTTPTLS helper) by (unfold m1; by rewrite Hk1).
    rewrite connect_result, Hd, (hook_call_HTTPTLS m1 helper Hkm1).
    unfold m1 at 2 3. rewrite Hh1, Hp1.
    by destruct (negotiate _ _ _).
  - apply builtin_hooks_local.
  - intros Hloc m' Hk Hh Hp Hs Hn.
    apply connect_result_clean_slate.
    + by rewrite (resolve_kind (self m1) (self m)).
    + by rewrite Hk.
    + by rewrite Hh.
    + by rewrite Hp.
    + by rewrite Hs.
    + exact Hn.
Qed.

End ConnectOrder.

(** ** Failures and what they leave behind *)

Section ConnectOutcomes.
Context `{Platform}.

(** C5: when the hook raises, connect() raises that very exception; the
    call has opened one socket and invoked the hook once, so nothing was
    retried.  The hook of the concrete adapter is the helper's handshake
    and nothing else: it adds no handling of its own. *)
Theorem handshake_error_propagates (m : Machine) (e : Exn) :
  dial m = None →
  (hook_call m).1 = Raise e →
  (connect m).1 = Raise e
  ∧ handshakes (log (world (connect m).2)) = handshakes (log (world m)) ++ [new_tls m]
  ∧ opened (log (world (connect m).2)) = opened (log (world m)) ++ [next_id (world m)]
  ∧ (∀ helper c,
       resolve {| kind := KHTTPTLS helper; http := c |} = ClientHelper_handshake helper).
Proof.
  intros Hd He. split_and!.
  - by rewrite connect_result, Hd.
  - by rewrite connect_handshakes, Hd.
  - apply connect_opened.
  - reflexivity.
Qed.

(** C6: where sockets have settimeout, the new socket gets a timeout of 10
    before it is connected; where they do not, no timeout is set and the
    call goes on to connect the socket all the same.  Either way the outcome
    of connect() is that of the connection attempt and of the hook. *)
Theorem timeout_is_best_effort (m : Machine) :
  let k := next_id (world m) in
  let h := host (http (self m)) in
  let p := port (http (self m)) in
  (has_settimeout = true →
     (∃ rest, log (world (connect m).2) =
                log (world m)
                ++ EvSocket k :: EvSetTimeout k 10 :: EvConnect k h p :: rest)
     ∧ timeouts (log (world (connect m).2)) = timeouts (log (world m)) ++ [(k, 10%Z)]
     ∧ dial m = tcp_connect h p k (with_timeout 10 fresh_socket))
  ∧ (has_settimeout = false →
     (∃ rest, log (world (connect m).2) =
                log (world m) ++ EvSocket k :: EvConnect k h p :: rest)
     ∧ timeouts (log (world (connect m).2)) = timeouts (log (world m))
     ∧ dial m = tcp_connect h p k fresh_socket)
  ∧ (connect m).1 = match dial m with Some e => Raise e | None => (hook_call m).1 end.
Proof.
  intros k h p. split_and!.
  - intros Ht. rewrite connect_timeouts, connect_log.
    unfold dial, prepared, opening. rewrite Ht. split_and!; [| done | done].
    eexists. cbn. reflexivity.
  - intros Ht. rewrite connect_timeouts, connect_log.
    unfold dial, prepared, opening. rewrite Ht. split_and!; [| by rewrite app_nil_r | done].
    eexists. cbn. reflexivity.
  - apply connect_result.
Qed.

(** C7: the hook of the base adapter does nothing but raise
    NotImplementedError.  So connect() on a base adapter never returns
    normally: it raises NotImplementedError as soon as the connection
    stands (leaving the raw sockets as they were handed to the hook), and
    only a failure of the connection attempt itself comes first. *)
Theorem base_hook_is_abstract (m : Machine) :
  kind (self m) = KBase →
  (∀ c tls net, HTTPBaseTLSConnection_handshake c tls net = (Raise NotImplementedError, net))
  ∧ hook_call m = (Raise NotImplementedError, connected_net m)
  ∧ (dial m = None → (connect m).1 = Raise NotImplementedError)
  ∧ (∀ e, dial m = Some e → (connect m).1 = Raise e)
  ∧ is_Return (connect m).1 = false.
Proof.
  intros Hk.
  assert (Hh : hook_call m = (Raise NotImplementedError, connected_net m)).
  { unfold hook_call, resolve, set_sock. cbn. by rewrite Hk. }
  split_and!.
  - reflexivity.
  - exact Hh.
  - intros Hd. by rewrite connect_result, Hd, Hh.
  - intros e Hd. by rewrite connect_result, Hd.
  - rewrite connect_result, Hh. by destruct (dial m).
Qed.

(** C9: once the connection stands, the session is stored as the transport
    handle before the hook runs: the hook is resolved on, and handed, an
    adapter whose handle is the new session, the session wraps the socket
    just connected to (host, port), and after the call (also when the hook
    raised) the handle is that session, whatever it was before. *)
Theorem sock_replaced_before_handshake (m : Machine) :
  dial m = None →
  let k := next_id (world m) in
  let tls := {| tls_id := S k; tls_sock := k |} in
  let me := set_sock tls (self m) in
  sock (http (self (connect m).2)) = Some tls
  ∧ (∀ e, (connect m).1 = Raise e → sock (http (self (connect m).2)) = Some tls)
  ∧ (∃ pre, log (world (connect m).2) = pre ++ [EvSetSock tls; EvHandshake tls])
  ∧ sock (http me) = Some tls
  ∧ connect m =
      ((resolve me (http me) tls (connected_net m)).1,
       {| self := me;
          world := {| next_id := S (S k);
                      sockets := (resolve me (http me) tls (connected_net m)).2;
                      log := log (world (connect m).2) |} |})
  ∧ connected_net m !! tls_sock tls
      = Some (with_peer (host (http (self m))) (port (http (self m))) prepared).
Proof.
  intros Hd k tls me.
  rewrite (connect_dialled m Hd). split_and!; try done.
  - exists ((log (world m) ++ opening m) ++ [EvWrap tls]).
    cbn [log world snd]. unfold securing. rewrite <- !app_assoc. reflexivity.
  - unfold connected_net. apply lookup_insert_eq.
Qed.

(** The three ways a call ends, for any hook: connect() returns, and then
    the connection stood and the transport handle is the new session; or it
    raises the error of the connection attempt, and then the adapter is as
    it was and the new socket is not connected; or it raises the error of
    the hook, and then the transport handle is the new session and the raw
    sockets are exactly as the hook left them: connect() itself closes
    nothing. *)
Lemma connect_outcomes (m : Machine) :
  let k := next_id (world m) in
  let tls := {| tls_id := S k; tls_sock := k |} in
  match (connect m).1 with
  | Return _ =>
      dial m = None ∧ sock (http (self (connect m).2)) = Some tls
  | Raise e =>
      (dial m = Some e
       ∧ self (connect m).2 = self m
       ∧ sockets (world (connect m).2) !! k = Some prepared
       ∧ live prepared = false)
      ∨ (dial m = None
         ∧ (hook_call m).1 = Raise e
         ∧ sock (http (self (connect m).2)) = Some tls
         ∧ sockets (world (connect m).2) = (hook_call m).2)
  end.
Proof.
  intros k tls. destruct (dial m) as [e|] eqn:Hd.
  - rewrite (connect_refused m e Hd). cbn. left. split_and!; try done.
    + apply lookup_insert_eq.
    + unfold prepared. by destruct has_settimeout.
  - rewrite (connect_dialled m Hd). cbn.
    destruct (hook_call m).1 eqn:Hh; [done |].
    right. done.
Qed.


(** An adapter the concrete constructor returns holds no socket, and its
    credentials are well paired. *)
Lemma HTTPTLSConnection_init_fresh
    (h : string) (p : option Z) (creds : ClientHelper) (w w' : World) (a : Adapter) :
  HTTPTLSConnection_init h p creds w = (Return a, w') →
  kind a = KHTTPTLS creds
  ∧ pairing_ok creds = true
  ∧ owns_live_socket {| self := a; world := w' |} = false.
Proof.
  rewrite HTTPTLSConnection_init_unfold.
  destruct (httplib_get_hostport default_port h p) as [[??]|]; [| done].
  destruct (pairing_ok creds); [| done].
  by intros [= <- <-].
Qed.

End ConnectOutcomes.

(** ** The properties at work on sample runs *)

(** A first connect() on a platform with settimeout, against a friendly
    server. *)
Example connect_friendly_log :
  log (world (connect (H:=friendly) alice_machine).2) =
    [EvSocket 0; EvSetTimeout 0 10; EvConnect 0 "example.test" 443;
     EvWrap {| tls_id := 1; tls_sock := 0 |};
     EvSetSock {| tls_id := 1; tls_sock := 0 |};
     EvHandshake {| tls_id := 1; tls_sock := 0 |}]
  ∧ (connect (H:=friendly) alice_machine).1 = Return ()
  ∧ owns_live_socket (connect (H:=friendly) alice_machine).2 = true.
Proof. vm_compute. done. Qed.

(** The same on a platform without settimeout. *)
Example connect_legacy_log :
  log (world (connect (H:=legacy) alice_machine).2) =
    [EvSocket 0; EvConnect 0 "example.test" 443;
     EvWrap {| tls_id := 1; tls_sock := 0 |};
     EvSetSock {| tls_id := 1; tls_sock := 0 |};
     EvHandshake {| tls_id := 1; tls_sock := 0 |}]
  ∧ (connect (H:=legacy) alice_machine).1 = Return ().
Proof. vm_compute. done. Qed.

(** A refused connection: no session is created and the adapter keeps no
    transport. *)
Example connect_refusing_log :
  log (world (connect (H:=refusing) alice_machine).2) =
    [EvSocket 0; EvSetTimeout 0 10; EvConnect 0 "example.test" 443]
  ∧ (connect (H:=refusing) alice_machine).1 = Raise (SocketError 111)
  ∧ sock (http (self (connect (H:=refusing) alice_machine).2)) = None
  ∧ owns_live_socket (connect (H:=refusing) alice_machine).2 = false.
Proof. vm_compute. done. Qed.

(** The base adapter: the socket is connected and kept, and the hook
    raises. *)
Example connect_base_keeps_socket :
  (connect (H:=friendly) base_machine).1 = Raise NotImplementedError
  ∧ owns_live_socket (connect (H:=friendly) base_machine).2 = true.
Proof. vm_compute. done. Qed.

(** The sample adapter is what the concrete constructor returns. *)
Example alice_machine_constructed :
  HTTPTLSConnection_init (H:=friendly) "example.test" (Some 443%Z) alice empty_world
  = (Return (self alice_machine), world alice_machine).
Proof. reflexivity. Qed.


Lemma alice_machine_consistent : consistent alice_machine.
Proof. by apply fresh_machine_consistent. Qed.

Lemma connect_steps_in_order_witness :
  consistent alice_machine
  ∧ log (world (connect (H:=friendly) alice_machine).2) =
      [EvSocket 0; EvSetTimeout 0 10; EvConnect 0 "example.test" 443;
       EvWrap {| tls_id := 1; tls_sock := 0 |};
       EvSetSock {| tls_id := 1; tls_sock := 0 |};
       EvHandshake {| tls_id := 1; tls_sock := 0 |}]
  ∧ NoDup (tls_sock <$> handshakes (log (world (connects (H:=friendly) 3 alice_machine)))).
Proof.
  destruct (@connect_steps_in_order friendly alice_machine 3 alice_machine_consistent)
    as (Hlog & _ & _ & Hnd).
  split; [exact alice_machine_consistent |].
  split; [exact Hlog | exact Hnd].
Defined.

Lemma successive_connects_are_independent_witness :
  consistent alice_machine
  ∧ opened (log (world (connects (H:=friendly) 2 alice_machine))) = [0; 2]
  ∧ 0 < 2
  ∧ (connect (H:=friendly)
       {| self := self alice_machine;
          world := {| next_id := 2; sockets := ∅; log := [] |} |}).1
    = (connect (H:=friendly) (connect (H:=friendly) alice_machine).2).1.
Proof.
  destruct (@successive_connects_are_independent friendly alice_machine
              alice_machine_consistent)
    as (Hop & _ & _ & Hlt & _ & _ & _ & _ & _ & Hloc & Hind).
  split; [exact alice_machine_consistent |].
  split; [exact Hop |]. split; [exact Hlt |].
  refine (Hind (Hloc _)
            {| self := self alice_machine;
               world := {| next_id := 2; sockets := ∅; log := [] |} |}
            eq_refl eq_refl eq_refl eq_refl eq_refl).
  intros hook. discriminate.
Defined.

Lemma handshake_error_propagates_witness :
  dial (H:=rejecting) alice_machine = None
  ∧ (hook_call (H:=rejecting) alice_machine).1 = Raise (TLSError 40)
  ∧ (connect (H:=rejecting) alice_machine).1 = Raise (TLSError 40).
Proof.
  split; [reflexivity |]. split; [reflexivity |].
  exact (proj1 (@handshake_error_propagates rejecting alice_machine (TLSError 40)
                  eq_refl eq_refl)).
Defined.

Lemma base_hook_is_abstract_witness :
  kind (self base_machine) = KBase
  ∧ (connect (H:=friendly) base_machine).1 = Raise NotImplementedError.
Proof.
  split; [reflexivity |].
  destruct (@base_hook_is_abstract friendly base_machine eq_refl)
    as (_ & _ & Hc & _).
  exact (Hc eq_refl).
Defined.

Lemma sock_replaced_before_handshake_witness :
  dial (H:=rejecting) alice_machine = None
  ∧ (connect (H:=rejecting) alice_machine).1 = Raise (TLSError 40)
  ∧ sock (http (self (connect (H:=rejecting) alice_machine).2))
    = Some {| tls_id := 1; tls_sock := 0 |}.
Proof.
  split; [reflexivity |]. split; [reflexivity |].
  exact (proj1 (@sock_replaced_before_handshake rejecting alice_machine eq_refl)).
Defined.

(** * Further properties of the life cycle *)

Section LifeCycle.
Context `{Platform}.

Lemma dialled_app (l1 l2 : list Event) :
  dialled (l1 ++ l2) = dialled l1 ++ dialled l2.
Proof.
  induction l1 as [|e l1 IH]; [done |].
  destruct e; cbn; by rewrite ?IH.
Qed.

Lemma connect_dialled_log (m : Machine) :
  dialled (log (world (connect m).2)) = dialled (log (world m)) ++ [target (self m)].
Proof.
  rewrite connect_log, !dialled_app. unfold opening, target.
  destruct has_settimeout, (dial m); cbn; by rewrite ?app_nil_r.
Qed.

(** X1: when sock.connect raises, connect() raises that exception at once:
    no session is created, the hook is not invoked, the adapter object is
    as it was, and the socket that was opened stays behind, unconnected and
    not closed; no other socket is touched. *)
Theorem refused_connect_stops_before_session (m : Machine) (e : Exn) :
  dial m = Some e →
  (connect m).1 = Raise e
  ∧ self (connect m).2 = self m
  ∧ wrapped (log (world (connect m).2)) = wrapped (log (world m))
  ∧ handshakes (log (world (connect m).2)) = handshakes (log (world m))
  ∧ sockets (world (connect m).2) !! next_id (world m) = Some prepared
  ∧ so_peer prepared = None
  ∧ so_closed prepared = false
  ∧ (∀ j, j ≠ next_id (world m) →
          sockets (world (connect m).2) !! j = sockets (world m) !! j).
Proof.
  intros Hd. split_and!.
  - by rewrite connect_result, Hd.
  - by rewrite connect_self, Hd.
  - by rewrite connect_wrapped, Hd, app_nil_r.
  - by rewrite connect_handshakes, Hd, app_nil_r.
  - rewrite (connect_refused m e Hd). apply lookup_insert_eq.
  - unfold prepared. by destruct has_settimeout.
  - unfold prepared. by destruct has_settimeout.
  - intros j Hj. rewrite (connect_refused m e Hd). cbn.
    by rewrite lookup_insert_ne.
Qed.

(** X2: connect() returns normally exactly when the connection attempt and
    the hook both succeed; and whenever the hook is invoked, the raw socket
    of the session it is given is connected and open. *)
Theorem connect_returns_iff (m : Machine) :
  ((connect m).1 = Return () ↔ dial m = None ∧ (hook_call m).1 = Return ())
  ∧ (dial m = None →
       ∃ rs, connected_net m !! tls_sock (new_tls m) = Some rs
             ∧ so_peer rs = Some (target (self m))
             ∧ live rs = true).
Proof.
  split.
  - rewrite connect_result. destruct (dial m) as [e|]; split.
    + discriminate.
    + by intros [? _].
    + done.
    + by intros [_ ?].
  - intros _. eexists. split; [apply lookup_insert_eq |].
    unfold prepared, target. by destruct has_settimeout.
Qed.

(** X3: connect() never changes the class of the adapter nor the host, port
    and strict flag it stores: however many times it is called and whatever
    the calls return, every connection attempt goes to the target stored at
    the start. *)
Theorem connects_keep_target (n : nat) (m : Machine) :
  kind (self (connects n m)) = kind (self m)
  ∧ host (http (self (connects n m))) = host (http (self m))
  ∧ port (http (self (connects n m))) = port (http (self m))
  ∧ strict (http (self (connects n m))) = strict (http (self m))
  ∧ dialled (log (world (connects n m)))
    = dialled (log (world m)) ++ replicate n (target (self m)).
Proof.
  revert m. induction n as [|n IH]; intros m.
  - cbn. by rewrite app_nil_r.
  - cbn [connects].
    destruct (IH (connect m).2) as (Hk & Hh & Hp & Hs & Hl).
    destruct (connect_keeps_fields m) as (Hk' & Hh' & Hp' & Hs').
    rewrite Hk, Hh, Hp, Hs, Hl, connect_dialled_log.
    split_and!; try done.
    unfold target. rewrite Hh', Hp', <- app_assoc. done.
Qed.

(** X4: the transport handle always is the session created last: if that
    holds before, it holds after any number of calls to connect(). *)
Theorem handle_is_latest_session (n : nat) (m : Machine) :
  sock (http (self m)) = last (wrapped (log (world m))) →
  sock (http (self (connects n m))) = last (wrapped (log (world (connects n m)))).
Proof.
  revert m. induction n as [|n IH]; intros m Hm; [done |].
  cbn [connects]. apply IH.
  rewrite connect_self, connect_wrapped.
  destruct (dial m); [by rewrite app_nil_r |].
  by rewrite last_snoc.
Qed.

(** X5: every session created is handed to the hook, once and in the order
    of creation, and each call opens exactly one socket and creates at most
    one session. *)
Theorem every_session_gets_its_handshake (n : nat) (m : Machine) :
  handshakes (log (world m)) = wrapped (log (world m)) →
  handshakes (log (world (connects n m))) = wrapped (log (world (connects n m)))
  ∧ length (opened (log (world (connects n m)))) = length (opened (log (world m))) + n
  ∧ length (wrapped (log (world (connects n m)))) ≤ length (wrapped (log (world m))) + n.
Proof.
  revert m. induction n as [|n IH]; intros m Hm.
  - cbn. split_and!; [done | lia | lia].
  - cbn [connects].
    assert (Hm1 : handshakes (log (world (connect m).2))
                  = wrapped (log (world (connect m).2))).
    { by rewrite connect_handshakes, connect_wrapped, Hm. }
    destruct (IH _ Hm1) as (Hh & Ho & Hw).
    split_and!; [done | |].
    + rewrite Ho, connect_opened, length_app. cbn. lia.
    + rewrite connect_wrapped, length_app in Hw.
      destruct (dial m); cbn in Hw; lia.
Qed.

(** X6: over any number of calls, the sockets opened are pairwise distinct
    objects and so are the sessions created. *)
Theorem connects_allocate_distinct_objects (n : nat) (m : Machine) :
  consistent m →
  NoDup (opened (log (world m))) →
  NoDup (tls_id <$> wrapped (log (world m))) →
  NoDup (opened (log (world (connects n m))))
  ∧ NoDup (tls_id <$> wrapped (log (world (connects n m)))).
Proof.
  revert m. induction n as [|n IH]; intros m Hm Ho Hw; [done |].
  cbn [connects]. apply IH.
  - by apply connect_consistent.
  - rewrite connect_opened. apply NoDup_app. split_and!; [done | | apply NoDup_singleton].
    intros x Hx [->|[]%elem_of_nil]%elem_of_cons.
    apply (older_opened _ _ _ (log_older m Hm)) in Hx. lia.
  - rewrite connect_wrapped. destruct (dial m); [by rewrite app_nil_r |].
    rewrite fmap_app. apply NoDup_app. split_and!; [done | | apply NoDup_singleton].
    intros x Hx [->|[]%elem_of_nil]%elem_of_cons.
    apply list_elem_of_fmap in Hx as [tls [Hid Htls]].
    destruct (older_wrapped _ _ _ (log_older m Hm) Htls) as [Hlt _].
    cbn in Hid. lia.
Qed.

(** X7: connect() does not close the session it replaces.  The socket of
    the session held before the call is not the new socket and reaches the
    hook unchanged; if the connection attempt fails it is unchanged after the
    call, and if the hook leaves it alone it is unchanged after the call
    while the adapter no longer refers to it. *)
Theorem connect_never_closes_previous (m : Machine) (old : TLSConnection) :
  consistent m →
  sock (http (self m)) = Some old →
  tls_sock old ≠ next_id (world m)
  ∧ connected_net m !! tls_sock old = sockets (world m) !! tls_sock old
  ∧ (∀ e, dial m = Some e →
          sockets (world (connect m).2) !! tls_sock old
          = sockets (world m) !! tls_sock old)
  ∧ (dial m = None →
     (hook_call m).2 !! tls_sock old = connected_net m !! tls_sock old →
     sockets (world (connect m).2) !! tls_sock old = sockets (world m) !! tls_sock old
     ∧ sock (http (self (connect m).2)) ≠ Some old).
Proof.
  intros Hm Hold.
  destruct (sock_older m Hm old Hold) as [_ Hlt].
  assert (Hne : tls_sock old ≠ next_id (world m)) by lia.
  assert (Hnet : connected_net m !! tls_sock old = sockets (world m) !! tls_sock old).
  { unfold connected_net. by rewrite lookup_insert_ne. }
  split_and!; [done | done | |].
  - intros e Hd. rewrite (connect_refused m e Hd). cbn.
    by rewrite lookup_insert_ne.
  - intros Hd Hhook. rewrite (connect_dialled m Hd). cbn.
    split; [by rewrite Hhook |].
    intros [= Heq]. apply Hne. by rewrite <- Heq.
Qed.

(** X8: an adapter constructed without a port, from a host string that has
    no port part (no ':' after its last ']'), stores port 443 and the host
    (without the brackets of an IPv6 address), and the connection attempt of
    its connect() goes to that host on port 443. *)
Theorem omitted_port_dials_443
    (hook : Hook) (h : string) (st : option bool) (w : World) :
  (rfind ":" h ≤ rfind "]" h)%Z →
  let c := {| host := unbracket h; port := 443; strict := st; sock := None |} in
  let a := {| kind := KSubclass hook; http := c |} in
  let b := {| kind := KBase; http := c |} in
  Subclass_new hook h None st w = (Return a, w)
  ∧ HTTPBaseTLSConnection_new h None st w = (Return b, w)
  ∧ dialled (log (world (connect {| self := a; world := w |}).2))
    = dialled (log w) ++ [(unbracket h, 443%Z)]
  ∧ dialled (log (world (connect {| self := b; world := w |}).2))
    = dialled (log w) ++ [(unbracket h, 443%Z)].
Proof.
  intros Hle c a b. split_and!.
  - rewrite Subclass_new_unfold.
    by rewrite (get_hostport_no_port_part _ _ Hle).
  - rewrite HTTPBaseTLSConnection_new_unfold.
    by rewrite (get_hostport_no_port_part _ _ Hle).
  - by rewrite connect_dialled_log.
  - by rewrite connect_dialled_log.
Qed.

End LifeCycle.

(** ** The life cycle on sample runs *)

Lemma refused_connect_stops_before_session_witness :
  dial (H:=refusing) alice_machine = Some (SocketError 111)
  ∧ (connect (H:=refusing) alice_machine).1 = Raise (SocketError 111)
  ∧ self (connect (H:=refusing) alice_machine).2 = self alice_machine.
Proof.
  split; [reflexivity |].
  destruct (@refused_connect_stops_before_session refusing alice_machine
              (SocketError 111) eq_refl) as (Hr & Hs & _).
  split; [exact Hr | exact Hs].
Defined.

Lemma handle_is_latest_session_witness :
  sock (http (self alice_machine)) = last (wrapped (log (world alice_machine)))
  ∧ sock (http (self (connects (H:=friendly) 2 alice_machine)))
    = Some {| tls_id := 3; tls_sock := 2 |}.
Proof.
  split; [reflexivity |].
  exact (@handle_is_latest_session friendly 2 alice_machine eq_refl).
Defined.

Lemma every_session_gets_its_handshake_witness :
  handshakes (log (world alice_machine)) = wrapped (log (world alice_machine))
  ∧ handshakes (log (world (connects (H:=rejecting) 2 alice_machine)))
    = [{| tls_id := 1; tls_sock := 0 |}; {| tls_id := 3; tls_sock := 2 |}].
Proof.
  split; [reflexivity |].
  exact (proj1 (@every_session_gets_its_handshake rejecting 2 alice_machine eq_refl)).
Defined.

Lemma connects_allocate_distinct_objects_witness :
  consistent alice_machine
  ∧ NoDup (opened (log (world alice_machine)))
  ∧ NoDup (tls_id <$> wrapped (log (world alice_machine)))
  ∧ NoDup (opened (log (world (connects (H:=friendly) 3 alice_machine)))).
Proof.
  split; [exact alice_machine_consistent |].
  split; [apply NoDup_nil_2 |]. split; [apply NoDup_nil_2 |].
  exact (proj1 (@connects_allocate_distinct_objects friendly 3 alice_machine
                  alice_machine_consistent (NoDup_nil_2 (A:=nat)) (NoDup_nil_2 (A:=nat)))).
Defined.

Lemma connect_never_closes_previous_witness :
  consistent (connect (H:=friendly) alice_machine).2
  ∧ sock (http (self (connect (H:=friendly) alice_machine).2))
    = Some {| tls_id := 1; tls_sock := 0 |}
  ∧ sockets (world (connects (H:=friendly) 2 alice_machine)) !! 0
    = sockets (world (connect (H:=friendly) alice_machine).2) !! 0
  ∧ sock (http (self (connects (H:=friendly) 2 alice_machine)))
    ≠ Some {| tls_id := 1; tls_sock := 0 |}.
Proof.
  assert (Hc : consistent (connect (H:=friendly) alice_machine).2)
    by exact (@connect_consistent friendly alice_machine alice_machine_consistent).
  split; [exact Hc |]. split; [reflexivity |].
  destruct (@connect_never_closes_previous friendly
              (connect (H:=friendly) alice_machine).2
              {| tls_id := 1; tls_sock := 0 |} Hc eq_refl) as (_ & _ & _ & Hk).
  exact (Hk eq_refl eq_refl).
Defined.

Lemma omitted_port_dials_443_witness :
  (rfind ":" "example.test" ≤ rfind "]" "example.test")%Z
  ∧ HTTPBaseTLSConnection_new (H:=friendly) "example.test" None None empty_world
    = (Return (self base_machine), empty_world)
  ∧ dialled (log (world (connect (H:=friendly) base_machine).2))
    = [("example.test", 443%Z)].
Proof.
  assert (Hle : (rfind ":" "example.test" ≤ rfind "]" "example.test")%Z)
    by (vm_compute; discriminate).
  split; [exact Hle |].
  destruct (@omitted_port_dials_443 friendly HTTPBaseTLSConnection_handshake
              "example.test" None empty_world Hle) as (_ & Hb & _ & Hd).
  split; [exact Hb | exact Hd].
Defined.
